(** * Portfolio: the view-state router of [src/App.jsx]

    The component [Portfolio] owns two pieces of React state,
    [currentView] and [selectedProject], reads a constant object
    [projects], and renders either [HomePage] or [ProjectDetail].
    This file embeds the component as executable definitions: the state
    and its setters, the registry with JavaScript property lookup, the
    three sub-components as functions producing a markup tree, and the
    top-level conditional render.  Rendering runs in a small monad that
    records the registry reads and can throw a JavaScript [TypeError]. *)

From Stdlib Require Import String Ascii List Bool.
Import ListNotations.
Local Open Scope string_scope.
Local Open Scope list_scope.

(** ** Project records (the values of [projects], lines 8-100) *)

Record Decision : Type := {
  choice : string;
  reasoning : string;
  tradeoff : string
}.

Record ProjectRecord : Type := {
  title : string;
  status : string;
  tagline : string;
  problem : string;
  architecture : list string;
  decisions : list Decision;
  failures : list string;
  next : list string
}.

(** The double-quote character, for the one literal of the source that
    contains it (line 40). *)
Definition dquote : string := String "034"%char EmptyString.

Definition ecommerce : ProjectRecord :=
  {| title := "E-Commerce System";
     status := "In Progress";
     tagline := "A system built to study real failure scenarios";
     problem := "Most e-commerce tutorials skip the hard parts: what happens when payment providers timeout, inventory gets oversold, or orders get stuck in limbo. I built this to understand how real systems handle these edge cases.";
     architecture :=
       [ "Order service manages state transitions through a finite state machine";
         "Inventory service handles reservations with TTL and deduction logic";
         "Payment service integrates with external providers, handling success/failure/timeout states";
         "Event-driven communication for async operations like notifications and auditing";
         "PostgreSQL for transactional consistency where it matters, Redis for reservation locks" ];
     decisions :=
       [ {| choice := "Inventory reservation before payment";
            reasoning := "Reserve items with a 10-minute TTL. Release on timeout or payment failure. Prevents overselling without holding stock indefinitely.";
            tradeoff := "Adds complexity. Alternative would be optimistic deduction with compensation, but that creates worse UX when stock runs out during checkout." |};
         {| choice := "Idempotency keys on order creation";
            reasoning := "Network retries can cause duplicate orders. Idempotency keys ensure the same request produces the same result.";
            tradeoff := "Requires key storage and expiration logic. Worth it to prevent double-charging customers." |};
         {| choice := "Async event processing for non-critical paths";
            reasoning := "Confirmation emails and analytics don't need to block order completion. Queue them for async processing.";
            tradeoff := "Eventual consistency. Users might complete checkout before receiving email. Acceptable for this use case." |} ];
     failures :=
       [ "Payment provider timeout: order stays in pending state. Built a background job to poll provider status and reconcile.";
         ("Inventory reservation expires during slow checkout: user sees " ++ dquote ++ "item no longer available" ++ dquote ++ " after payment. Added pre-payment validation step.")%string;
         "Concurrent requests to same inventory: race condition on stock count. Implemented pessimistic locking for inventory reads during reservation.";
         "Event processing failure: lost notification events. Added dead letter queue and monitoring." ];
     next :=
       [ "Simulate partial outages: database connection pool exhaustion, service degradation";
         "Implement saga pattern for distributed transactions across order/payment/inventory";
         "Add OpenTelemetry tracing to visualize request flow through services";
         "Load test with k6 to identify bottlenecks" ] |}.

Definition blogging : ProjectRecord :=
  {| title := "Microservices Blogging Platform";
     status := "Completed";
     tagline := "Built to understand microservices architecture beyond buzzwords";
     problem := "Microservices are often presented as either a silver bullet or over-engineering. I built this to understand the actual complexity: service boundaries, data consistency, and when the cost is worth it.";
     architecture :=
       [ "API Gateway handles routing, rate limiting, and request validation";
         "Auth Service manages users, sessions, JWT tokens";
         "Content Service handles posts, comments, drafts";
         "Notification Service processes email/push notifications asynchronously";
         "Each service has its own PostgreSQL database (no shared schema)";
         "Redis for session storage and content caching";
         "RabbitMQ for async messaging between services";
         "S3 for media uploads with pre-signed URLs" ];
     decisions :=
       [ {| choice := "Database per service";
            reasoning := "Each service owns its data. Changes to one schema don't cascade. Services can scale independently.";
            tradeoff := "No foreign keys across services. Joins become API calls. Eventual consistency on reads. Had to implement distributed data patterns." |};
         {| choice := "Redis cache with TTL";
            reasoning := "Popular posts get hammered. Cache responses for 60 seconds to reduce database load.";
            tradeoff := "Stale reads. Cache invalidation on updates is hard. Implemented cache-aside pattern with write-through on critical paths." |};
         {| choice := "Async notifications via message queue";
            reasoning := "Don't block content creation while sending emails. Notifications aren't critical path.";
            tradeoff := "User publishes post, notification arrives seconds later. Acceptable delay. Notifications can fail silentlyâ€”added retry logic and monitoring." |};
         {| choice := "API Gateway as single entry point";
            reasoning := "Centralized auth, rate limiting, routing. Services don't need to implement these concerns.";
            tradeoff := "Single point of failure. Adds latency. Worth it for simplified service logic and consistent security layer." |} ];
     failures :=
       [ "Cache stampede: popular post cache expires, 100 requests hit database simultaneously. Added probabilistic early expiration.";
         "Service-to-service coupling: content service called notification service directly. Changed to event-driven to decouple.";
         "Distributed transaction complexity: user publishes post, notification fails. Post is live but users aren't notified. Acceptable for this system, but learned about saga patterns.";
         "S3 upload timeout: large images failed silently. Implemented client-side compression and progress tracking." ];
     next :=
       [ "Was this worth the complexity? For a blogging platform, probably not. Learned the cost of microservices firsthand.";
         "Would use this pattern again for: domains with truly independent lifecycles, teams that need autonomous deployment, services that scale differently.";
         "Would not use for: CRUD apps, small teams, startups finding product-market fit." ] |}.

(** The object literal [projects]: own properties in insertion order. *)
Definition projects : list (string * ProjectRecord) :=
  [ ("ecommerce", ecommerce); ("blogging", blogging) ].

Definition registry_keys : list string := map fst projects.

(** ** JavaScript property lookup on [projects] *)

(** What [projects[k]] can evaluate to.  [projects] is a plain object
    literal, so a key that is not an own property is looked up on
    [Object.prototype]: it yields a member of that prototype when the
    name is one of its properties and [undefined] otherwise.  A
    prototype member (a built-in function, or the prototype object
    itself for [__proto__]) has none of the properties of a project
    record. *)
Inductive projval : Type :=
| Undefined
| Record_ (p : ProjectRecord)
| Inherited (name : string).

Definition Object_prototype_keys : list string :=
  [ "constructor"; "hasOwnProperty"; "isPrototypeOf"; "propertyIsEnumerable";
    "toLocaleString"; "toString"; "valueOf"; "__proto__";
    "__defineGetter__"; "__defineSetter__"; "__lookupGetter__";
    "__lookupSetter__" ].

Fixpoint own_property (o : list (string * ProjectRecord)) (k : string)
  : option ProjectRecord :=
  match o with
  | [] => None
  | (k', p) :: o' => if String.eqb k k' then Some p else own_property o' k
  end.

Definition mem_string (k : string) (l : list string) : bool :=
  existsb (String.eqb k) l.

Definition property (o : list (string * ProjectRecord)) (k : string) : projval :=
  match own_property o k with
  | Some p => Record_ p
  | None => if mem_string k Object_prototype_keys then Inherited k else Undefined
  end.

(** ** The render monad: a log of registry reads and a result or a throw *)

Inductive error : Type :=
| TypeError_undefined (reading : string).
    (* "Cannot read properties of undefined (reading '...')" *)

Inductive result (A : Type) : Type :=
| Ok (a : A)
| Throw (e : error).
Arguments Ok {A} a.
Arguments Throw {A} e.

Definition M (A : Type) : Type := (list string * result A)%type.

Definition ret {A} (a : A) : M A := ([], Ok a).
Definition throw {A} (e : error) : M A := ([], Throw e).
Definition bind {A B} (m : M A) (f : A -> M B) : M B :=
  match m with
  | (l, Ok a) => let (l', r) := f a in (l ++ l', r)
  | (l, Throw e) => (l, Throw e)
  end.

Notation "x <- m ;; k" := (bind m (fun x => k))
  (at level 61, m at next level, right associativity).

Definition reads {A} (m : M A) : list string := fst m.
Definition outcome {A} (m : M A) : result A := snd m.

(** [projects[k]] and [projects.k]: one logged read of the registry. *)
Definition projects_get (k : string) : M projval :=
  ([k], Ok (property projects k)).

(** [v.name] for a record field [name]: throws on [undefined], is
    [undefined] (here [None]) on a prototype member. *)
Definition member {A} (name : string) (f : ProjectRecord -> A) (v : projval)
  : M (option A) :=
  match v with
  | Undefined => throw (TypeError_undefined name)
  | Record_ p => ret (Some (f p))
  | Inherited _ => ret None
  end.

(** [arr.map(f)]: reading [map] of [undefined] throws. *)
Definition array_map {A B} (f : A -> B) (arr : option (list A)) : M (list B) :=
  match arr with
  | None => throw (TypeError_undefined "map")
  | Some l => ret (map f l)
  end.

(** ** Component state (lines 5-6) and its setters *)

(** [selectedProject] holds [null] ([None]) or a string. *)
Record state : Type := {
  currentView : string;
  selectedProject : option string
}.

Definition initial : state :=
  {| currentView := "home"; selectedProject := None |}.

Definition setCurrentView (v : string) (s : state) : state :=
  {| currentView := v; selectedProject := selectedProject s |}.

Definition setSelectedProject (v : option string) (s : state) : state :=
  {| currentView := currentView s; selectedProject := v |}.

(** An event handler is the sequence of setter calls in its body. *)
Inductive call : Type :=
| SetSelectedProject (v : option string)
| SetCurrentView (v : string).

Definition handler : Type := list call.

Definition run_call (c : call) (s : state) : state :=
  match c with
  | SetSelectedProject v => setSelectedProject v s
  | SetCurrentView v => setCurrentView v s
  end.

Definition run (h : handler) (s : state) : state :=
  fold_left (fun s c => run_call c s) h s.

(** The [onClick] of [ProjectCard] (lines 104-107). *)
Definition ProjectCard_onClick (projectKey : string) : handler :=
  [ SetSelectedProject (Some projectKey); SetCurrentView "project" ].

(** The [onClick] of the Back button of [ProjectDetail] (line 127). *)
Definition Back_onClick : handler :=
  [ SetCurrentView "home" ].

(** The two navigation operations of the specification. *)
Definition selectProject (id : string) (s : state) : state :=
  run (ProjectCard_onClick id) s.

Definition goHome (s : state) : state :=
  run Back_onClick s.

(** ** Rendered markup *)

#[warnings="-register-all"]
Inductive node : Type :=
| Text (s : string)
| Icon (name : string) (size : nat)
| Elem (tag : string) (props : list (string * string))
       (onClick : option handler) (children : list node).

Definition className (c : string) : string * string := ("className", c).
Definition href (u : string) : string * string := ("href", u).

(** React renders nothing for [undefined], [null], [false] and the empty
    string; any other string child becomes a text node. *)
Definition string_child (s : string) : list node :=
  match s with
  | EmptyString => []
  | _ => [Text s]
  end.

Definition text_child (v : option string) : list node :=
  match v with
  | None => []
  | Some s => string_child s
  end.

(** JavaScript truthiness of [selectedProject]: [null] and [''] are falsy. *)
Definition truthy (v : option string) : bool :=
  match v with
  | None => false
  | Some EmptyString => false
  | Some _ => true
  end.

(** [v === s] for a string literal [s]. *)
Definition strict_eq (v : option string) (s : string) : bool :=
  match v with
  | None => false
  | Some x => String.eqb x s
  end.

(** The property key a value is converted to in [projects[v]]. *)
Definition ToPropertyKey (v : option string) : string :=
  match v with
  | None => "null"
  | Some s => s
  end.

(** ** ProjectCard (lines 102-122) *)

Definition ProjectCard (projectKey : string) (project : projval) : M node :=
  t <- member "title" title project ;;
  st <- member "status" status project ;;
  tg <- member "tagline" tagline project ;;
  ret
    (Elem "div"
       [className "border border-gray-800 p-8 hover:border-gray-600 transition-colors cursor-pointer group"]
       (Some (ProjectCard_onClick projectKey))
       [ Elem "div" [className "flex justify-between items-start mb-3"] None
           [ Elem "h3"
               [className "text-xl font-light tracking-wide group-hover:text-gray-300 transition-colors"]
               None (text_child t);
             Elem "span" [className "text-xs text-gray-500 uppercase tracking-wider"]
               None (text_child st) ];
         Elem "p" [className "text-gray-400 text-sm leading-relaxed"] None
           (text_child tg) ]).

(** ** ProjectDetail (lines 124-194) *)

Definition list_item (item : string) : node :=
  Elem "p" [className "text-gray-400 leading-relaxed pl-4 border-l border-gray-800"]
    None (string_child item).

Definition decision_item (decision : Decision) : node :=
  Elem "div" [className "border-l border-gray-800 pl-6"] None
    [ Elem "h3" [className "text-gray-300 mb-2 font-light"] None
        (string_child (choice decision));
      Elem "p" [className "text-gray-400 text-sm leading-relaxed mb-3"] None
        (string_child (reasoning decision));
      Elem "p" [className "text-gray-500 text-sm leading-relaxed italic"] None
        (Text "Trade-off: " :: string_child (tradeoff decision)) ].

(** The heading of the last section (line 183): chosen by comparing the
    state variable [selectedProject] with a literal. *)
Definition final_heading (selectedProject : option string) : string :=
  if strict_eq selectedProject "ecommerce" then "What's Next" else "Lessons Learned".

Definition ProjectDetail (selectedProject : option string) (project : projval)
  : M node :=
  t <- member "title" title project ;;
  st <- member "status" status project ;;
  pr <- member "problem" problem project ;;
  ar <- member "architecture" architecture project ;;
  ars <- array_map list_item ar ;;
  de <- member "decisions" decisions project ;;
  des <- array_map decision_item de ;;
  fa <- member "failures" failures project ;;
  fas <- array_map list_item fa ;;
  ne <- member "next" next project ;;
  nes <- array_map list_item ne ;;
  ret
    (Elem "div" [className "max-w-3xl mx-auto"] None
       [ Elem "button"
           [className "flex items-center gap-2 text-gray-400 hover:text-gray-200 mb-12 transition-colors"]
           (Some Back_onClick)
           [ Icon "ArrowLeft" 16;
             Elem "span" [className "text-sm"] None [Text "Back"] ];
         Elem "div" [className "mb-12"] None
           [ Elem "h1" [className "text-3xl font-light tracking-wide mb-3"] None
               (text_child t);
             Elem "p" [className "text-gray-400 text-sm uppercase tracking-wider"] None
               (text_child st) ];
         Elem "section" [className "mb-16"] None
           [ Elem "h2" [className "text-xl font-light mb-4 text-gray-300"] None
               [Text "Problem"];
             Elem "p" [className "text-gray-400 leading-relaxed"] None
               (text_child pr) ];
         Elem "section" [className "mb-16"] None
           [ Elem "h2" [className "text-xl font-light mb-4 text-gray-300"] None
               [Text "Architecture"];
             Elem "div" [className "space-y-3"] None ars ];
         Elem "section" [className "mb-16"] None
           [ Elem "h2" [className "text-xl font-light mb-6 text-gray-300"] None
               [Text "Key Decisions"];
             Elem "div" [className "space-y-8"] None des ];
         Elem "section" [className "mb-16"] None
           [ Elem "h2" [className "text-xl font-light mb-4 text-gray-300"] None
               [Text "Failure Modes"];
             Elem "div" [className "space-y-3"] None fas ];
         Elem "section" [] None
           [ Elem "h2" [className "text-xl font-light mb-4 text-gray-300"] None
               (string_child (final_heading selectedProject));
             Elem "div" [className "space-y-3"] None nes ] ]).

(** ** HomePage (lines 196-245): a fragment of four sections *)

Definition contact_link (url icon label : string) : node :=
  Elem "a"
    [href url; className "flex items-center gap-2 text-gray-400 hover:text-gray-200 transition-colors"]
    None
    [ Icon icon 18; Elem "span" [className "text-sm"] None [Text label] ].

Definition HomePage : M (list node) :=
  p1 <- projects_get "ecommerce" ;;
  c1 <- ProjectCard "ecommerce" p1 ;;
  p2 <- projects_get "blogging" ;;
  c2 <- ProjectCard "blogging" p2 ;;
  ret
    [ Elem "section"
        [className "min-h-[60vh] flex flex-col justify-center items-center text-center mb-32"]
        None
        [ Elem "h1" [className "text-4xl md:text-5xl font-light tracking-wide mb-6 leading-tight"]
            None [Text "Creativity doesn't ask for permission."];
          Elem "p" [className "text-gray-400 text-lg max-w-2xl leading-relaxed"] None
            [Text "From every era, someone chooses to build differently. I'm choosing to be one of them."];
          Elem "div"
            [className "mt-12 w-40 h-40 bg-gray-800 rounded-sm flex items-center justify-center text-gray-600 text-xs"]
            None [Text "Your headshot here"] ];
      Elem "section" [className "mb-32"] None
        [ Elem "h2" [className "text-2xl font-light tracking-wide mb-8 text-gray-300"] None
            [Text "Featured Projects"];
          Elem "div" [className "grid gap-6"] None [c1; c2] ];
      Elem "section" [className "mb-32"] None
        [ Elem "h2" [className "text-2xl font-light tracking-wide mb-6 text-gray-300"] None
            [Text "About"];
          Elem "p" [className "text-gray-400 leading-relaxed max-w-2xl"] None
            [Text "I'm a backend engineer focused on understanding how real systems behave under pressure. I build projects to explore architecture trade-offs, failure modes, and the decisions tutorials don't teach. Each system is a study in what breaks first and why."] ];
      Elem "section" [] None
        [ Elem "h2" [className "text-2xl font-light tracking-wide mb-6 text-gray-300"] None
            [Text "Contact"];
          Elem "div" [className "flex gap-8"] None
            [ contact_link "https://linkedin.com" "Linkedin" "LinkedIn";
              contact_link "https://github.com" "Github" "GitHub";
              contact_link "mailto:contact@example.com" "Mail" "Email" ] ] ].

(** ** Portfolio: the top-level render (lines 247-256) *)

(** The page shell around the children selected by the two guards. *)
Definition shell (children : list node) : node :=
  Elem "div" [className "min-h-screen bg-black text-white"] None
    [ Elem "div" [className "max-w-5xl mx-auto px-6 py-16 md:py-24"] None children ].

Definition Portfolio (s : state) : M node :=
  home <- (if String.eqb (currentView s) "home" then HomePage else ret []) ;;
  detail <- (if String.eqb (currentView s) "project" && truthy (selectedProject s)
             then
               project <- projects_get (ToPropertyKey (selectedProject s)) ;;
               d <- ProjectDetail (selectedProject s) project ;;
               ret [d]
             else ret []) ;;
  ret (shell (home ++ detail)).

(** ** Reading a rendered tree *)

Fixpoint text_content (n : node) : string :=
  match n with
  | Text s => s
  | Icon _ _ => EmptyString
  | Elem _ _ _ ch => String.concat EmptyString (map text_content ch)
  end.

(** All elements with a given tag, in document order. *)
Fixpoint by_tag (t : string) (n : node) : list node :=
  match n with
  | Elem tag _ _ ch =>
      (if String.eqb tag t then [n] else []) ++ flat_map (by_tag t) ch
  | _ => []
  end.

(** All event handlers attached in the tree, in document order. *)
Fixpoint handlers (n : node) : list handler :=
  match n with
  | Elem _ _ h ch =>
      (match h with Some h => [h] | None => [] end) ++ flat_map handlers ch
  | _ => []
  end.

(** The key a handler selects, when it calls [setSelectedProject] with a
    string. *)
Definition selected_key (h : handler) : option string :=
  match h with
  | SetSelectedProject (Some k) :: _ => Some k
  | _ => None
  end.

(** The project cards of a tree: the elements whose [onClick] selects a
    project, in document order. *)
Fixpoint cards (n : node) : list node :=
  match n with
  | Elem _ _ h ch =>
      (match h with
       | Some h' => match selected_key h' with Some _ => [n] | None => [] end
       | None => []
       end) ++ flat_map cards ch
  | _ => []
  end.

Definition card_key (n : node) : option string :=
  match n with
  | Elem _ _ (Some h) _ => selected_key h
  | _ => None
  end.

Definition headings (t : string) (n : node) : list string :=
  map text_content (by_tag t n).

(** A card shows its title in its [h3]. *)
Definition card_title (n : node) : list string := headings "h3" n.

(** The section headings of a view are its [h2] elements; the header
    title of the detail view is its [h1]. *)
Definition section_headings (n : node) : list string := headings "h2" n.
Definition header_title (n : node) : list string := headings "h1" n.

(** Being an own key of the registry. *)
Definition is_key (id : string) : Prop := In id registry_keys.

(** States reachable from [initial] by the two operations, [selectProject]
    taking a key of the registry. *)
Inductive reachable : state -> Prop :=
| reach_initial : reachable initial
| reach_select id s : is_key id -> reachable s -> reachable (selectProject id s)
| reach_home s : reachable s -> reachable (goHome s).

(** States reachable through the interface: each step runs a handler
    that the render of the current state attaches to some element. *)
Inductive ui_reachable : state -> Prop :=
| ui_initial : ui_reachable initial
| ui_click s tree h :
    ui_reachable s ->
    outcome (Portfolio s) = Ok tree ->
    In h (handlers tree) ->
    ui_reachable (run h s).

(** ** Reading the sections of a view *)

Definition children (n : node) : list node :=
  match n with
  | Elem _ _ _ ch => ch
  | _ => []
  end.

(** A [section] of the detail view is a heading followed by a body; the
    entries of the section are the children of the body. *)
Definition section_entries (sec : node) : list node :=
  match children sec with
  | [_; body] => children body
  | _ => []
  end.

(** A section read back as its heading and the text of each entry. *)
Definition section_view (sec : node) : string * list string :=
  (String.concat EmptyString (headings "h2" sec),
   map text_content (section_entries sec)).

Definition sections (n : node) : list (string * list string) :=
  map section_view (by_tag "section" n).

(** What a string child shows: nothing for the empty string. *)
Definition shown (s : string) : list string :=
  match s with
  | EmptyString => []
  | _ => [s]
  end.

(** The value of a markup attribute of an element, such as [href]. *)
Definition attribute (name : string) (n : node) : option string :=
  match n with
  | Elem _ props _ _ =>
      option_map snd (find (fun kv => String.eqb (fst kv) name) props)
  | _ => None
  end.

(** * Properties *)

(** ** Helper lemmas *)

Ltac key_cases H :=
  unfold is_key, registry_keys in H; simpl in H;
  destruct H as [H | [H | []]]; subst.

Lemma is_key_ecommerce : is_key "ecommerce".
Proof. unfold is_key; simpl; auto. Qed.

Lemma is_key_blogging : is_key "blogging".
Proof. unfold is_key; simpl; auto. Qed.

Lemma own_property_None (o : list (string * ProjectRecord)) (k : string) :
  ~ In k (map fst o) -> own_property o k = None.
Proof.
  induction o as [| [k' p] o IH]; simpl; intros Hk.
  - reflexivity.
  - destruct (String.eqb_spec k k') as [-> | _].
    + exfalso; apply Hk; now left.
    + apply IH; intros Hin; apply Hk; now right.
Qed.

Lemma own_property_Some (o : list (string * ProjectRecord)) (k : string) (p : ProjectRecord) :
  own_property o k = Some p -> In k (map fst o).
Proof.
  induction o as [| [k' q] o IH]; simpl; intros H.
  - discriminate.
  - destruct (String.eqb_spec k k') as [-> | _]; [now left | right; auto].
Qed.

Lemma truthy_nonempty (id : string) : id <> EmptyString -> truthy (Some id) = true.
Proof. destruct id; [congruence | reflexivity]. Qed.

Lemma string_child_no_tag (t s : string) : flat_map (by_tag t) (string_child s) = [].
Proof. destruct s; reflexivity. Qed.

Lemma list_items_no_h2 (l : list string) :
  flat_map (by_tag "h2") (map list_item l) = [].
Proof.
  induction l as [| x l IH]; [reflexivity |].
  change (map list_item (x :: l)) with (list_item x :: map list_item l).
  cbn [flat_map]; rewrite IH; unfold list_item; cbn [by_tag].
  rewrite string_child_no_tag; reflexivity.
Qed.

Lemma decision_items_no_h2 (l : list Decision) :
  flat_map (by_tag "h2") (map decision_item l) = [].
Proof.
  induction l as [| x l IH]; [reflexivity |].
  change (map decision_item (x :: l)) with (decision_item x :: map decision_item l).
  cbn [flat_map]; rewrite IH; unfold decision_item; cbn.
  rewrite !string_child_no_tag; reflexivity.
Qed.

Lemma text_content_final_heading (sel : option string) (props : list (string * string)) :
  text_content (Elem "h2" props None (string_child (final_heading sel))) = final_heading sel.
Proof. unfold final_heading; destruct (strict_eq sel "ecommerce"); reflexivity. Qed.

(** The shape of the states the two operations can produce. *)
Lemma reachable_shape (s : state) :
  reachable s ->
  s = initial \/
  exists id, is_key id /\
    (s = {| currentView := "home"; selectedProject := Some id |} \/
     s = {| currentView := "project"; selectedProject := Some id |}).
Proof.
  induction 1 as [| id s Hid _ _ | s _ IH].
  - now left.
  - right; exists id; split; [assumption | right; reflexivity].
  - destruct IH as [-> | (id & Hid & [-> | ->])].
    + now left.
    + right; exists id; split; [assumption | left; reflexivity].
    + right; exists id; split; [assumption | left; reflexivity].
Qed.

(** Every handler the interface offers in a reachable state is one of
    the two operations, with a key of the registry. *)
Lemma offered_handlers (s : state) (tree : node) (h : handler) :
  reachable s ->
  outcome (Portfolio s) = Ok tree ->
  In h (handlers tree) ->
  h = Back_onClick \/ exists id, is_key id /\ h = ProjectCard_onClick id.
Proof.
  intros Hs Ht Hh.
  assert (Hcards : forall tree',
             outcome (Portfolio initial) = Ok tree' -> In h (handlers tree') ->
             exists id, is_key id /\ h = ProjectCard_onClick id).
  { intros tree' E Hin; vm_compute in E; injection E as <-.
    vm_compute in Hin; destruct Hin as [<- | [<- | []]].
    - exists "ecommerce"; split; [apply is_key_ecommerce | reflexivity].
    - exists "blogging"; split; [apply is_key_blogging | reflexivity]. }
  destruct (reachable_shape s Hs) as [-> | (id & Hid & [-> | ->])].
  - right; eapply Hcards; eassumption.
  - right; eapply Hcards; [| eassumption]. exact Ht.
  - left. key_cases Hid; vm_compute in Ht; injection Ht as <-;
      vm_compute in Hh; destruct Hh as [<- | []]; reflexivity.
Qed.

Lemma ui_reachable_reachable (s : state) : ui_reachable s -> reachable s.
Proof.
  induction 1 as [| s tree h _ IH Ht Hh].
  - constructor.
  - destruct (offered_handlers s tree h IH Ht Hh) as [-> | (id & Hid & ->)].
    + now apply reach_home.
    + now apply reach_select.
Qed.

(** ** Navigation to a project *)

(** C1. For every key [id] of the registry and every state [s],
    [selectProject id] yields a state with [currentView = "project"] and
    [selectedProject = id], and the detail view rendered from that state
    has the title of [projects[id]] as its header title. *)
Theorem selectProject_valid (id : string) (s : state) :
  is_key id ->
  currentView (selectProject id s) = "project" /\
  selectedProject (selectProject id s) = Some id /\
  exists p tree,
    own_property projects id = Some p /\
    outcome (Portfolio (selectProject id s)) = Ok tree /\
    header_title tree = [title p].
Proof.
  intros Hid; split; [reflexivity | split; [reflexivity |]].
  key_cases Hid.
  - exists ecommerce; eexists; split; [reflexivity |].
    split; [vm_compute; reflexivity | reflexivity].
  - exists blogging; eexists; split; [reflexivity |].
    split; [vm_compute; reflexivity | reflexivity].
Qed.

Lemma selectProject_valid_witness :
  is_key "blogging" /\
  currentView (selectProject "blogging" initial) = "project" /\
  selectedProject (selectProject "blogging" initial) = Some "blogging" /\
  exists p tree,
    own_property projects "blogging" = Some p /\
    outcome (Portfolio (selectProject "blogging" initial)) = Ok tree /\
    header_title tree = [title p].
Proof.
  split.
  - unfold is_key; simpl; auto.
  - apply (selectProject_valid "blogging" initial); unfold is_key; simpl; auto.
Defined.

(** C2. In every state reachable from the initial state by
    [selectProject] (on keys of the registry) and [goHome], whenever
    [currentView = "project"] the value of [selectedProject] is a key of
    the registry. *)
Theorem selection_valid_in_project_view (s : state) :
  reachable s ->
  currentView s = "project" ->
  exists id, selectedProject s = Some id /\ is_key id.
Proof.
  induction 1 as [| id s Hid _ _ | s _ _]; intros Hv.
  - discriminate Hv.
  - exists id; split; [reflexivity | assumption].
  - discriminate Hv.
Qed.

Lemma selection_valid_in_project_view_witness :
  reachable (selectProject "ecommerce" (goHome (selectProject "blogging" initial))) /\
  exists id,
    selectedProject (selectProject "ecommerce" (goHome (selectProject "blogging" initial)))
      = Some id /\ is_key id.
Proof.
  assert (R : reachable (selectProject "ecommerce" (goHome (selectProject "blogging" initial)))).
  { apply reach_select; [unfold is_key; simpl; auto |].
    apply reach_home, reach_select; [unfold is_key; simpl; auto | apply reach_initial]. }
  split; [exact R |].
  apply (selection_valid_in_project_view _ R); reflexivity.
Defined.

(** ** Selecting an identifier that is not in the registry *)

(** C3, as stated, fails: for the identifier ["unknown"], which is not a
    key of the registry, the render after [selectProject] produces no
    page at all; reading [title] of the undefined record throws. *)
Lemma unknown_project_throws :
  ~ is_key "unknown" /\
  Portfolio (selectProject "unknown" initial)
    = (["unknown"], Throw (TypeError_undefined "title")) /\
  ~ exists tree, outcome (Portfolio (selectProject "unknown" initial)) = Ok tree.
Proof.
  split; [| split].
  - unfold is_key; simpl; intros [H | [H | []]]; discriminate H.
  - reflexivity.
  - intros [tree H]; vm_compute in H; discriminate H.
Qed.

(** C3, amended. For every string [id] that is not a key of the
    registry, [selectProject id] stores [id] and switches to the project
    view, and no detail view is produced from that state: for the empty
    string the guard on [selectedProject] leaves only the empty page
    shell, without reading the registry; for any other [id] the registry
    is read once at [id], the value found is not a project record, and
    rendering the detail view throws a [TypeError] (reading [title] of
    [undefined], or [map] of the undefined [architecture] when [id] names
    a member inherited from [Object.prototype]). *)
Theorem selectProject_unknown (id : string) (s : state) :
  ~ is_key id ->
  currentView (selectProject id s) = "project" /\
  selectedProject (selectProject id s) = Some id /\
  (id = EmptyString -> Portfolio (selectProject id s) = ([], Ok (shell []))) /\
  (id <> EmptyString ->
     reads (Portfolio (selectProject id s)) = [id] /\
     (forall p, property projects id <> Record_ p) /\
     outcome (Portfolio (selectProject id s))
       = Throw (TypeError_undefined
                  (if mem_string id Object_prototype_keys then "map" else "title"))).
Proof.
  intros Hid; split; [reflexivity | split; [reflexivity | split]].
  - intros ->; reflexivity.
  - intros Hne.
    assert (Hown : own_property projects id = None)
      by (apply own_property_None; exact Hid).
    assert (Hp : property projects id
                 = if mem_string id Object_prototype_keys then Inherited id else Undefined)
      by (unfold property; rewrite Hown; reflexivity).
    unfold Portfolio, selectProject, reads, outcome.
    cbn [run ProjectCard_onClick fold_left run_call setCurrentView setSelectedProject
         currentView selectedProject].
    change (String.eqb "project" "home") with false.
    change (String.eqb "project" "project") with true.
    rewrite (truthy_nonempty id Hne).
    cbn [andb ToPropertyKey]; unfold projects_get; rewrite Hp.
    destruct (mem_string id Object_prototype_keys).
    + split; [| split]; [ | intros p; discriminate | ].
      * cbn; reflexivity.
      * cbn; reflexivity.
    + split; [| split]; [ | intros p; discriminate | ].
      * cbn; reflexivity.
      * cbn; reflexivity.
Qed.

Lemma selectProject_unknown_witness :
  ~ is_key "toString" /\
  currentView (selectProject "toString" initial) = "project" /\
  selectedProject (selectProject "toString" initial) = Some "toString" /\
  ("toString" = EmptyString ->
     Portfolio (selectProject "toString" initial) = ([], Ok (shell []))) /\
  ("toString" <> EmptyString ->
     reads (Portfolio (selectProject "toString" initial)) = ["toString"] /\
     (forall p, property projects "toString" <> Record_ p) /\
     outcome (Portfolio (selectProject "toString" initial))
       = Throw (TypeError_undefined
                  (if mem_string "toString" Object_prototype_keys then "map" else "title"))).
Proof.
  assert (H : ~ is_key "toString")
    by (unfold is_key; simpl; intros [H | [H | []]]; discriminate H).
  split; [exact H | apply (selectProject_unknown "toString" initial H)].
Defined.

(** ** The home view *)

(** C4. A fresh session starts with [currentView = "home"] and renders
    the home view, which contains exactly two project cards, in registry
    order, titled "E-Commerce System" and "Microservices Blogging
    Platform". *)
Theorem initial_render :
  currentView initial = "home" /\
  selectedProject initial = None /\
  exists home tree,
    outcome HomePage = Ok home /\
    outcome (Portfolio initial) = Ok tree /\
    tree = shell home /\
    map card_key (cards tree) = map Some registry_keys /\
    map card_title (cards tree)
      = [ ["E-Commerce System"]; ["Microservices Blogging Platform"] ].
Proof.
  split; [reflexivity | split; [reflexivity |]].
  do 2 eexists.
  split; [vm_compute; reflexivity |].
  split; [vm_compute; reflexivity |].
  split; [reflexivity | split; reflexivity].
Qed.

(** C5. For every key [id] of the registry, [selectProject id] followed
    by [goHome] yields a state with [currentView = "home"], and the
    render from that state, registry reads included, equals the initial
    render.  The registry is a constant of the component: the state the
    operations act on holds only [currentView] and [selectedProject]. *)
Theorem select_then_home (id : string) (s : state) :
  is_key id ->
  currentView (goHome (selectProject id s)) = "home" /\
  Portfolio (goHome (selectProject id s)) = Portfolio initial /\
  exists tree, outcome (Portfolio (goHome (selectProject id s))) = Ok tree.
Proof.
  intros _; split; [reflexivity | split; [reflexivity |]].
  eexists; vm_compute; reflexivity.
Qed.

Lemma select_then_home_witness :
  is_key "ecommerce" /\
  currentView (goHome (selectProject "ecommerce" initial)) = "home" /\
  Portfolio (goHome (selectProject "ecommerce" initial)) = Portfolio initial /\
  exists tree, outcome (Portfolio (goHome (selectProject "ecommerce" initial))) = Ok tree.
Proof.
  split.
  - unfold is_key; simpl; auto.
  - apply (select_then_home "ecommerce" initial); unfold is_key; simpl; auto.
Defined.

(** ** The detail view *)

(** C6. For a key [id] of the registry, the last section heading of the
    detail view is "What's Next" exactly when [id] is ["ecommerce"], the
    project whose status is "In Progress", and it is "Lessons Learned"
    exactly when the status of [projects[id]] is "Completed", which is
    the case for ["blogging"]. *)
Theorem final_section_label (id : string) (s : state) :
  is_key id ->
  exists p tree,
    own_property projects id = Some p /\
    outcome (Portfolio (selectProject id s)) = Ok tree /\
    (last (section_headings tree) EmptyString = "What's Next" <-> id = "ecommerce") /\
    (id = "ecommerce" <-> status p = "In Progress") /\
    (last (section_headings tree) EmptyString = "Lessons Learned" <-> id = "blogging") /\
    (id = "blogging" <-> status p = "Completed").
Proof.
  intros Hid; key_cases Hid.
  - exists ecommerce; eexists; split; [reflexivity |].
    split; [vm_compute; reflexivity |].
    repeat split; intros H; try reflexivity; vm_compute in H; discriminate H.
  - exists blogging; eexists; split; [reflexivity |].
    split; [vm_compute; reflexivity |].
    repeat split; intros H; try reflexivity; vm_compute in H; discriminate H.
Qed.

Lemma final_section_label_witness :
  is_key "ecommerce" /\
  exists p tree,
    own_property projects "ecommerce" = Some p /\
    outcome (Portfolio (selectProject "ecommerce" initial)) = Ok tree /\
    (last (section_headings tree) EmptyString = "What's Next" <-> "ecommerce" = "ecommerce") /\
    ("ecommerce" = "ecommerce" <-> status p = "In Progress") /\
    (last (section_headings tree) EmptyString = "Lessons Learned" <-> "ecommerce" = "blogging") /\
    ("ecommerce" = "blogging" <-> status p = "Completed").
Proof.
  split.
  - unfold is_key; simpl; auto.
  - apply (final_section_label "ecommerce" initial); unfold is_key; simpl; auto.
Defined.

(** C7. [goHome] sets [currentView] to ["home"] and leaves
    [selectedProject] as it was: after [selectProject id] and [goHome]
    the key [id] is still stored. *)
Theorem goHome_keeps_selection :
  (forall s, currentView (goHome s) = "home" /\
             selectedProject (goHome s) = selectedProject s) /\
  (forall id s, selectedProject (goHome (selectProject id s)) = Some id).
Proof. split; [intros s; split; reflexivity | intros id s; reflexivity]. Qed.

(** ** Returning home *)

(** C9. Calling [goHome] twice yields the same state as calling it once,
    with [currentView = "home"], and the render from that state
    succeeds. *)
Theorem goHome_idempotent (s : state) :
  goHome (goHome s) = goHome s /\
  currentView (goHome (goHome s)) = "home" /\
  exists tree, outcome (Portfolio (goHome (goHome s))) = Ok tree.
Proof.
  split; [reflexivity | split; [reflexivity |]].
  eexists; vm_compute; reflexivity.
Qed.

(** ** The guard on [selectedProject] *)

(** C10. In the state with [currentView = "project"] and
    [selectedProject = null] the top-level render succeeds: neither
    [HomePage] nor [ProjectDetail] is rendered, the result is the empty
    page shell, and the registry is not read at all. *)
Theorem project_view_without_selection :
  Portfolio {| currentView := "project"; selectedProject := None |}
    = ([], Ok (shell [])) /\
  handlers (shell []) = [] /\
  text_content (shell []) = EmptyString.
Proof. repeat split. Qed.

(** * Further properties of the component *)

(** ** Helper lemmas *)

Lemma own_property_In (o : list (string * ProjectRecord)) (k : string) :
  In k (map fst o) -> exists p, own_property o k = Some p.
Proof.
  induction o as [| [k' q] o IH]; simpl; intros H.
  - destruct H.
  - destruct (String.eqb_spec k k') as [-> | Hne].
    + now exists q.
    + destruct H as [H | H]; [congruence | auto].
Qed.

Lemma ProjectDetail_record (sel : option string) (p : ProjectRecord) :
  exists d, ProjectDetail sel (Record_ p) = ([], Ok d).
Proof. eexists; reflexivity. Qed.

(** The four ways the top-level render can go, by the state. *)
Lemma Portfolio_cases (s : state) :
  (currentView s = "home" /\ Portfolio s = Portfolio initial) \/
  (currentView s <> "home" /\
   (currentView s <> "project" \/ truthy (selectedProject s) = false) /\
   Portfolio s = ([], Ok (shell []))) \/
  (currentView s = "project" /\
   exists id p d,
     selectedProject s = Some id /\ id <> EmptyString /\ is_key id /\
     own_property projects id = Some p /\
     ProjectDetail (Some id) (Record_ p) = ([], Ok d) /\
     Portfolio s = ([id], Ok (shell [d]))) \/
  (currentView s = "project" /\
   exists id e,
     selectedProject s = Some id /\ id <> EmptyString /\ ~ is_key id /\
     Portfolio s = ([id], Throw e)).
Proof.
  destruct s as [v sel]; cbn [currentView selectedProject].
  destruct (String.eqb_spec v "home") as [-> | Hh].
  { left; split; reflexivity. }
  right.
  assert (Hhb : String.eqb v "home" = false) by (apply String.eqb_neq; exact Hh).
  destruct (String.eqb_spec v "project") as [-> | Hp].
  2:{ left; split; [exact Hh | split; [left; exact Hp |]].
      assert (Hpb : String.eqb v "project" = false) by (apply String.eqb_neq; exact Hp).
      unfold Portfolio; cbn [currentView selectedProject].
      rewrite Hhb, Hpb; reflexivity. }
  destruct sel as [id |].
  2:{ left; split; [exact Hh | split; [right; reflexivity | reflexivity]]. }
  destruct id as [| a r].
  { left; split; [exact Hh | split; [right; reflexivity | reflexivity]]. }
  right.
  set (id := String a r).
  assert (Hne : id <> EmptyString) by (unfold id; discriminate).
  destruct (own_property projects id) as [p |] eqn:Hown.
  - left; split; [reflexivity |].
    destruct (ProjectDetail_record (Some id) p) as [d Hd].
    exists id, p, d.
    split; [reflexivity | split; [exact Hne |]].
    split; [exact (own_property_Some projects id p Hown) |].
    split; [exact Hown | split; [exact Hd |]].
    unfold Portfolio; cbn [currentView selectedProject].
    change (String.eqb "project" "home") with false.
    change (String.eqb "project" "project") with true.
    rewrite (truthy_nonempty id Hne).
    cbn [andb ToPropertyKey]; unfold projects_get, property; rewrite Hown.
    cbn [bind ret app]; rewrite Hd; reflexivity.
  - right; split; [reflexivity |].
    assert (Hnk : ~ is_key id).
    { intros Hk; destruct (own_property_In projects id Hk) as [p Hp].
      rewrite Hp in Hown; discriminate Hown. }
    exists id,
      (TypeError_undefined
         (if mem_string id Object_prototype_keys then "map" else "title")).
    split; [reflexivity | split; [exact Hne | split; [exact Hnk |]]].
    unfold Portfolio; cbn [currentView selectedProject].
    change (String.eqb "project" "home") with false.
    change (String.eqb "project" "project") with true.
    rewrite (truthy_nonempty id Hne).
    cbn [andb ToPropertyKey]; unfold projects_get, property; rewrite Hown.
    destruct (mem_string id Object_prototype_keys); reflexivity.
Qed.

(** ** What the top-level render produces, for every state *)

(** X1. The render is the empty page shell exactly when the view is not
    ["home"] and either the view is not ["project"] or [selectedProject]
    is falsy ([null] or the empty string); the registry is then not read. *)
Theorem blank_page_iff (s : state) :
  (outcome (Portfolio s) = Ok (shell []) <->
   currentView s <> "home" /\
   (currentView s <> "project" \/ truthy (selectedProject s) = false)) /\
  (outcome (Portfolio s) = Ok (shell []) <-> Portfolio s = ([], Ok (shell []))).
Proof.
  assert (Hfwd : outcome (Portfolio s) = Ok (shell []) ->
                 currentView s <> "home" /\
                 (currentView s <> "project" \/ truthy (selectedProject s) = false) /\
                 Portfolio s = ([], Ok (shell []))).
  { intros H.
    destruct (Portfolio_cases s)
      as [[_ E] | [(Hh & Hc & E) | [(_ & id & p & d & _ & _ & _ & _ & _ & E)
                                   | (_ & id & e & _ & _ & _ & E)]]].
    - rewrite E in H; vm_compute in H; discriminate H.
    - auto.
    - rewrite E in H; cbn in H; discriminate H.
    - rewrite E in H; cbn in H; discriminate H. }
  split; split.
  - intros H; destruct (Hfwd H) as (H1 & H2 & _); auto.
  - intros [Hh Hc].
    destruct (Portfolio_cases s)
      as [[Hv _] | [(_ & _ & E) | [(Hv & id & p & d & Hs & Hne & _)
                                  | (Hv & id & e & Hs & Hne & _)]]].
    + contradiction.
    + rewrite E; reflexivity.
    + destruct Hc as [Hc | Hc]; [contradiction |].
      rewrite Hs, (truthy_nonempty id Hne) in Hc; discriminate Hc.
    + destruct Hc as [Hc | Hc]; [contradiction |].
      rewrite Hs, (truthy_nonempty id Hne) in Hc; discriminate Hc.
  - intros H; destruct (Hfwd H) as (_ & _ & E); exact E.
  - intros E; rewrite E; reflexivity.
Qed.

(** X2. In the home view the render does not depend on [selectedProject]:
    a selection left over from an earlier visit is not observable. *)
Theorem home_render_ignores_selection (s : state) :
  currentView s = "home" -> Portfolio s = Portfolio initial.
Proof.
  destruct s as [v sel]; cbn [currentView]; intros ->; reflexivity.
Qed.

Lemma home_render_ignores_selection_witness :
  currentView (goHome (selectProject "blogging" initial)) = "home" /\
  selectedProject (goHome (selectProject "blogging" initial)) = Some "blogging" /\
  Portfolio (goHome (selectProject "blogging" initial)) = Portfolio initial.
Proof.
  split; [reflexivity | split; [reflexivity |]].
  apply (home_render_ignores_selection (goHome (selectProject "blogging" initial)));
    reflexivity.
Defined.

(** X3. Whatever the state, a render that succeeds is the home view, the
    empty shell, or the detail view of a record of the registry under
    its own key: a detail view is never produced for a missing record. *)
Theorem successful_render_shape (s : state) (tree : node) :
  outcome (Portfolio s) = Ok tree ->
  (currentView s = "home" /\ outcome (Portfolio initial) = Ok tree) \/
  (currentView s <> "home" /\ tree = shell []) \/
  (currentView s = "project" /\
   exists id p d,
     selectedProject s = Some id /\ is_key id /\
     own_property projects id = Some p /\
     outcome (ProjectDetail (Some id) (Record_ p)) = Ok d /\
     tree = shell [d]).
Proof.
  intros H.
  destruct (Portfolio_cases s)
    as [[Hv E] | [(Hh & _ & E) | [(Hv & id & p & d & Hs & _ & Hk & Hown & Hd & E)
                                 | (_ & id & e & _ & _ & _ & E)]]].
  - left; split; [exact Hv | rewrite <- E; exact H].
  - right; left; split; [exact Hh |].
    rewrite E in H; cbn in H; injection H as <-; reflexivity.
  - right; right; split; [exact Hv |].
    exists id, p, d; repeat split; try assumption.
    + rewrite Hd; reflexivity.
    + rewrite E in H; cbn in H; injection H as <-; reflexivity.
  - rewrite E in H; cbn in H; discriminate H.
Qed.

Lemma successful_render_shape_witness :
  outcome (Portfolio {| currentView := "project"; selectedProject := Some EmptyString |})
    = Ok (shell []) /\
  ((currentView {| currentView := "project"; selectedProject := Some EmptyString |} = "home" /\
    outcome (Portfolio initial) = Ok (shell [])) \/
   (currentView {| currentView := "project"; selectedProject := Some EmptyString |} <> "home" /\
    shell [] = shell []) \/
   (currentView {| currentView := "project"; selectedProject := Some EmptyString |} = "project" /\
    exists id p d,
      selectedProject {| currentView := "project"; selectedProject := Some EmptyString |}
        = Some id /\ is_key id /\
      own_property projects id = Some p /\
      outcome (ProjectDetail (Some id) (Record_ p)) = Ok d /\
      shell [] = shell [d])).
Proof.
  split; [reflexivity |].
  apply (successful_render_shape
           {| currentView := "project"; selectedProject := Some EmptyString |} (shell []));
    reflexivity.
Defined.

(** X4. The render throws exactly when the view is ["project"] and
    [selectedProject] is a non-empty string that is not a key of the
    registry; in every other state it succeeds. *)
Theorem render_throws_iff (s : state) :
  (exists e, outcome (Portfolio s) = Throw e) <->
  (currentView s = "project" /\
   exists id, selectedProject s = Some id /\ id <> EmptyString /\ ~ is_key id).
Proof.
  split.
  - intros [e0 H].
    destruct (Portfolio_cases s)
      as [[_ E] | [(_ & _ & E) | [(_ & id & p & d & _ & _ & _ & _ & _ & E)
                                 | (Hv & id & e & Hs & Hne & Hnk & _)]]].
    + rewrite E in H; vm_compute in H; discriminate H.
    + rewrite E in H; cbn in H; discriminate H.
    + rewrite E in H; cbn in H; discriminate H.
    + split; [exact Hv | exists id; auto].
  - intros (Hv & id & Hs & Hne & Hnk).
    destruct (Portfolio_cases s)
      as [[Hv' _] | [(_ & Hc & _) | [(_ & id' & p & d & Hs' & _ & Hk & _)
                                    | (_ & id' & e & _ & _ & _ & E)]]].
    + rewrite Hv in Hv'; discriminate Hv'.
    + destruct Hc as [Hc | Hc]; [contradiction |].
      rewrite Hs, (truthy_nonempty id Hne) in Hc; discriminate Hc.
    + rewrite Hs in Hs'; injection Hs' as ->; contradiction.
    + exists e; rewrite E; reflexivity.
Qed.

(** ** Navigation through the rendered interface *)

Lemma ui_project_view (id : string) :
  is_key id ->
  ui_reachable {| currentView := "project"; selectedProject := Some id |}.
Proof.
  intros Hid.
  assert (Hin : forall tree, outcome (Portfolio initial) = Ok tree ->
                             In (ProjectCard_onClick id) (handlers tree)).
  { intros tree E; vm_compute in E; injection E as <-.
    key_cases Hid; vm_compute; auto. }
  destruct (outcome (Portfolio initial)) as [tree | e] eqn:E;
    [| vm_compute in E; discriminate E].
  change {| currentView := "project"; selectedProject := Some id |}
    with (run (ProjectCard_onClick id) initial).
  apply (ui_click initial tree); [apply ui_initial | exact E | apply Hin; reflexivity].
Qed.

Lemma ui_home_after_project (id : string) :
  is_key id ->
  ui_reachable {| currentView := "home"; selectedProject := Some id |}.
Proof.
  intros Hid.
  pose proof (ui_project_view id Hid) as Hp.
  change {| currentView := "home"; selectedProject := Some id |}
    with (run Back_onClick {| currentView := "project"; selectedProject := Some id |}).
  key_cases Hid.
  - eapply ui_click; [exact Hp | vm_compute; reflexivity | vm_compute; auto].
  - eapply ui_click; [exact Hp | vm_compute; reflexivity | vm_compute; auto].
Qed.

(** X5. The states reachable by clicking what the rendered views offer
    are exactly the states reachable by [selectProject] on registry keys
    and [goHome]: the interface offers every valid navigation and no
    other. *)
Theorem ui_reachable_iff_reachable (s : state) :
  ui_reachable s <-> reachable s.
Proof.
  split.
  - apply ui_reachable_reachable.
  - intros H; destruct (reachable_shape s H) as [-> | (id & Hid & [-> | ->])].
    + apply ui_initial.
    + apply ui_home_after_project, Hid.
    + apply ui_project_view, Hid.
Qed.

(** X6. In every state reachable through the interface the view is
    ["home"] or ["project"], the render succeeds, and the rendered page
    offers at least one control: navigation never crashes and never
    reaches a dead end. *)
Theorem ui_navigation_safe (s : state) :
  ui_reachable s ->
  (currentView s = "home" \/ currentView s = "project") /\
  exists tree, outcome (Portfolio s) = Ok tree /\ handlers tree <> [].
Proof.
  intros H; apply ui_reachable_reachable in H.
  destruct (reachable_shape s H) as [-> | (id & Hid & [-> | ->])].
  - split; [left; reflexivity |].
    eexists; split; [vm_compute; reflexivity | vm_compute; discriminate].
  - split; [left; reflexivity |].
    eexists; split; [vm_compute; reflexivity | vm_compute; discriminate].
  - split; [right; reflexivity |].
    key_cases Hid;
      (eexists; split; [vm_compute; reflexivity | vm_compute; discriminate]).
Qed.

Lemma ui_navigation_safe_witness :
  ui_reachable (selectProject "ecommerce" initial) /\
  (currentView (selectProject "ecommerce" initial) = "home" \/
   currentView (selectProject "ecommerce" initial) = "project") /\
  exists tree,
    outcome (Portfolio (selectProject "ecommerce" initial)) = Ok tree /\
    handlers tree <> [].
Proof.
  assert (R : ui_reachable (selectProject "ecommerce" initial)).
  { apply (ui_click initial (shell (match outcome HomePage with Ok h => h | Throw _ => [] end))).
    - apply ui_initial.
    - vm_compute; reflexivity.
    - vm_compute; auto. }
  split; [exact R | apply (ui_navigation_safe _ R)].
Defined.

(** ** What the components show, for an arbitrary record *)

Lemma text_content_string_child (tag : string) (props : list (string * string))
  (h : option handler) (s : string) :
  text_content (Elem tag props h (string_child s)) = s.
Proof. destruct s; reflexivity. Qed.

Lemma text_content_list_item (x : string) : text_content (list_item x) = x.
Proof. apply text_content_string_child. Qed.

Lemma map_text_list_items (l : list string) :
  map text_content (map list_item l) = l.
Proof.
  induction l as [| x l IH]; [reflexivity |].
  cbn [map]; rewrite IH, text_content_list_item; reflexivity.
Qed.

Lemma text_content_decision_item (d : Decision) :
  text_content (decision_item d)
  = (choice d ++ reasoning d ++ "Trade-off: " ++ tradeoff d)%string.
Proof. destruct d as [c r t]; destruct c, r, t; reflexivity. Qed.

Lemma map_text_decision_items (l : list Decision) :
  map text_content (map decision_item l)
  = map (fun d => (choice d ++ reasoning d ++ "Trade-off: " ++ tradeoff d)%string) l.
Proof.
  induction l as [| x l IH]; [reflexivity |].
  cbn [map]; rewrite IH, text_content_decision_item; reflexivity.
Qed.

Lemma decision_item_parts (d : Decision) :
  map text_content (children (decision_item d))
  = [ choice d; reasoning d; ("Trade-off: " ++ tradeoff d)%string ].
Proof. destruct d as [c r t]; destruct c, r, t; reflexivity. Qed.

Lemma map_decision_item_parts (l : list Decision) :
  map (fun b => map text_content (children b)) (map decision_item l)
  = map (fun d => [ choice d; reasoning d; ("Trade-off: " ++ tradeoff d)%string ]) l.
Proof.
  induction l as [| x l IH]; [reflexivity |].
  cbn [map]; rewrite IH, decision_item_parts; reflexivity.
Qed.

Lemma list_items_no_section (l : list string) :
  flat_map (by_tag "section") (map list_item l) = [].
Proof.
  induction l as [| x l IH]; [reflexivity |].
  change (map list_item (x :: l)) with (list_item x :: map list_item l).
  cbn [flat_map]; rewrite IH; unfold list_item; cbn [by_tag].
  rewrite string_child_no_tag; reflexivity.
Qed.

Lemma decision_items_no_section (l : list Decision) :
  flat_map (by_tag "section") (map decision_item l) = [].
Proof.
  induction l as [| x l IH]; [reflexivity |].
  change (map decision_item (x :: l)) with (decision_item x :: map decision_item l).
  cbn [flat_map]; rewrite IH; unfold decision_item; cbn.
  rewrite !string_child_no_tag; reflexivity.
Qed.

Lemma string_child_no_handlers (s : string) : flat_map handlers (string_child s) = [].
Proof. destruct s; reflexivity. Qed.



Lemma map_text_string_child (s : string) :
  map text_content (string_child s) = shown s.
Proof. destruct s; reflexivity. Qed.

(** C8. For every project record, whatever its fields hold and whatever
    the selection is, the detail view renders without error and its
    sections come in the order Problem, Architecture, Key Decisions,
    Failure Modes, final list: the five [section] elements are the
    children of the view that follow the Back button and the header, and
    each one carries its heading together with the content of the
    matching field of the record.  In particular this holds for every
    entry of the registry rendered through [Portfolio]. *)
Theorem section_order :
  (forall (sel : option string) (p : ProjectRecord),
     exists tree,
       ProjectDetail sel (Record_ p) = ([], Ok tree) /\
       section_headings tree
         = [ "Problem"; "Architecture"; "Key Decisions"; "Failure Modes";
             final_heading sel ] /\
       skipn 2 (children tree) = by_tag "section" tree /\
       sections tree
         = [ ("Problem", shown (problem p));
             ("Architecture", architecture p);
             ("Key Decisions",
              map (fun d =>
                     (choice d ++ reasoning d ++ "Trade-off: " ++ tradeoff d)%string)
                (decisions p));
             ("Failure Modes", failures p);
             (final_heading sel, next p) ]) /\
  Forall (fun kp : string * ProjectRecord =>
            exists tree,
              outcome (Portfolio (selectProject (fst kp) initial)) = Ok tree /\
              section_headings tree
                = [ "Problem"; "Architecture"; "Key Decisions"; "Failure Modes";
                    final_heading (Some (fst kp)) ] /\
              sections tree
                = [ ("Problem", shown (problem (snd kp)));
                    ("Architecture", architecture (snd kp));
                    ("Key Decisions",
                     map (fun d =>
                            (choice d ++ reasoning d ++ "Trade-off: "
                               ++ tradeoff d)%string)
                       (decisions (snd kp)));
                    ("Failure Modes", failures (snd kp));
                    (final_heading (Some (fst kp)), next (snd kp)) ])
         projects.
Proof.
  split.
  - intros sel p; eexists; split; [reflexivity |].
    split; [| split].
    + unfold section_headings, headings.
      cbn [by_tag String.eqb Ascii.eqb Bool.eqb flat_map app].
      rewrite !list_items_no_h2, decision_items_no_h2.
      cbn [text_child]; rewrite !string_child_no_tag.
      cbn [app map]; rewrite text_content_final_heading; reflexivity.
    + cbn [children skipn by_tag String.eqb Ascii.eqb Bool.eqb flat_map app].
      rewrite !list_items_no_section, decision_items_no_section.
      cbn [text_child]; rewrite !string_child_no_tag.
      reflexivity.
    + unfold sections.
      cbn [by_tag String.eqb Ascii.eqb Bool.eqb flat_map app].
      rewrite !list_items_no_section, decision_items_no_section.
      cbn [text_child]; rewrite !string_child_no_tag.
      cbn [app map].
      unfold section_view, section_entries, headings.
      cbn [children by_tag String.eqb Ascii.eqb Bool.eqb flat_map app].
      rewrite !list_items_no_h2, decision_items_no_h2, !string_child_no_tag.
      cbn [app map String.concat].
      rewrite !map_text_list_items, map_text_decision_items, map_text_string_child.
      rewrite text_content_final_heading.
      reflexivity.
  - repeat constructor; eexists;
      (split; [vm_compute; reflexivity | split; vm_compute; reflexivity]).
Qed.

(** X7. For every project record and every selection, the detail view
    renders without error and its five sections show the record: the
    problem text, then the architecture, decision, failure and final
    entries, each list complete and in the order of the record. *)
Theorem detail_sections_show_record (sel : option string) (p : ProjectRecord) :
  exists tree,
    ProjectDetail sel (Record_ p) = ([], Ok tree) /\
    sections tree
    = [ ("Problem", shown (problem p));
        ("Architecture", architecture p);
        ("Key Decisions",
         map (fun d => (choice d ++ reasoning d ++ "Trade-off: " ++ tradeoff d)%string)
           (decisions p));
        ("Failure Modes", failures p);
        (final_heading sel, next p) ].
Proof.
  eexists; split; [reflexivity |].
  unfold sections.
  cbn [by_tag String.eqb Ascii.eqb Bool.eqb flat_map app].
  rewrite !list_items_no_section, decision_items_no_section.
  cbn [text_child]; rewrite !string_child_no_tag.
  cbn [app map].
  unfold section_view, section_entries, headings.
  cbn [children by_tag String.eqb Ascii.eqb Bool.eqb flat_map app].
  rewrite !list_items_no_h2, decision_items_no_h2, !string_child_no_tag.
  cbn [app map String.concat].
  rewrite !map_text_list_items, map_text_decision_items, map_text_string_child.
  rewrite text_content_final_heading.
  reflexivity.
Qed.

(** X8. For every project record, the Key Decisions section holds one
    block per decision, in the order of the record, and each block shows
    the choice, then the reasoning, then "Trade-off: " followed by the
    tradeoff. *)
Theorem decision_blocks_show_triples (sel : option string) (p : ProjectRecord) :
  exists tree,
    ProjectDetail sel (Record_ p) = ([], Ok tree) /\
    map (fun b => map text_content (children b))
        (section_entries (nth 2 (by_tag "section" tree) (Text EmptyString)))
    = map (fun d => [ choice d; reasoning d; ("Trade-off: " ++ tradeoff d)%string ])
        (decisions p).
Proof.
  eexists; split; [reflexivity |].
  cbn [by_tag String.eqb Ascii.eqb Bool.eqb flat_map app].
  rewrite !list_items_no_section, decision_items_no_section.
  cbn [text_child]; rewrite !string_child_no_tag.
  cbn [app nth section_entries children].
  apply map_decision_item_parts.
Qed.


(** X10. For every key and every project record, the card renders
    without error, shows the title, the status and the tagline of the
    record, and carries a single handler, on the card itself; running it
    from any state selects the card's key and opens the project view. *)
Theorem ProjectCard_shows_and_selects (projectKey : string) (p : ProjectRecord) :
  exists card,
    ProjectCard projectKey (Record_ p) = ([], Ok card) /\
    card_title card = [title p] /\
    headings "span" card = [status p] /\
    headings "p" card = [tagline p] /\
    cards card = [card] /\
    card_key card = Some projectKey /\
    exists h,
      handlers card = [h] /\
      forall s, run h s
                = {| currentView := "project"; selectedProject := Some projectKey |}.
Proof.
  eexists; split; [reflexivity |].
  repeat split.
  - unfold card_title, headings.
    cbn [by_tag String.eqb Ascii.eqb Bool.eqb flat_map app text_child].
    rewrite !string_child_no_tag; cbn [app map].
    rewrite text_content_string_child; reflexivity.
  - unfold headings.
    cbn [by_tag String.eqb Ascii.eqb Bool.eqb flat_map app text_child].
    rewrite !string_child_no_tag; cbn [app map].
    rewrite text_content_string_child; reflexivity.
  - unfold headings.
    cbn [by_tag String.eqb Ascii.eqb Bool.eqb flat_map app text_child].
    rewrite !string_child_no_tag; cbn [app map].
    rewrite text_content_string_child; reflexivity.
  - cbn [cards flat_map app selected_key ProjectCard_onClick text_child].
    assert (Hs : forall s, flat_map cards (string_child s) = [])
      by (intros s; destruct s; reflexivity).
    rewrite !Hs; reflexivity.
  - exists (ProjectCard_onClick projectKey); split.
    + cbn [handlers flat_map app text_child].
      rewrite !string_child_no_handlers; reflexivity.
    + intros s; reflexivity.
Qed.

(** ** The registry *)

Lemma own_property_entry (o : list (string * ProjectRecord)) (k : string)
  (p : ProjectRecord) :
  own_property o k = Some p -> In (k, p) o.
Proof.
  induction o as [| [k' q] o IH]; simpl; intros H.
  - discriminate H.
  - destruct (String.eqb_spec k k') as [-> | _].
    + injection H as ->; now left.
    + right; auto.
Qed.

(** X11. [projects[k]] is a project record exactly when [k] is a key of
    the registry, and then it is the record stored under [k]; for any
    other key the lookup gives [undefined] or a member inherited from
    [Object.prototype], never a record. *)
Theorem registry_lookup (k : string) :
  (is_key k <-> exists p, property projects k = Record_ p) /\
  (forall p, property projects k = Record_ p <-> In (k, p) projects) /\
  (~ is_key k <-> property projects k = Undefined \/ property projects k = Inherited k).
Proof.
  assert (Hrec : forall p, property projects k = Record_ p ->
                           own_property projects k = Some p).
  { intros p; unfold property.
    destruct (own_property projects k) as [q |].
    - intros H; injection H as ->; reflexivity.
    - destruct (mem_string k Object_prototype_keys); discriminate. }
  split; [| split].
  - split.
    + intros Hk; destruct (own_property_In projects k Hk) as [p Hp].
      exists p; unfold property; rewrite Hp; reflexivity.
    + intros [p Hp]; exact (own_property_Some projects k p (Hrec p Hp)).
  - intros p; split.
    + intros H; exact (own_property_entry projects k p (Hrec p H)).
    + intros [H | [H | []]]; injection H as <- <-; reflexivity.
  - split.
    + intros Hk; unfold property.
      rewrite (own_property_None projects k Hk).
      destruct (mem_string k Object_prototype_keys); auto.
    + intros H Hk; destruct (own_property_In projects k Hk) as [p Hp].
      unfold property in H; rewrite Hp in H.
      destruct H as [H | H]; discriminate H.
Qed.

(** ** The home view and the registry *)

(** X12. In the home view, whatever [selectedProject] holds, the render
    succeeds and shows one card per entry of the registry, in registry
    order, each with the key, title, status and tagline of its entry.
    The cards are the only elements with a click handler; the other
    interactive elements of the page are the three contact links, plain
    anchors to the LinkedIn, GitHub and mail targets without a handler,
    and the page has no button. *)
Theorem home_cards_match_registry (s : state) :
  currentView s = "home" ->
  exists tree,
    outcome (Portfolio s) = Ok tree /\
    map (fun c => (card_key c, card_title c, headings "span" c, headings "p" c))
        (cards tree)
    = map (fun kp : string * ProjectRecord =>
             (Some (fst kp), [title (snd kp)], [status (snd kp)], [tagline (snd kp)]))
          projects /\
    handlers tree = map ProjectCard_onClick registry_keys /\
    map (fun a => (attribute "href" a, text_content a, handlers a)) (by_tag "a" tree)
    = [ (Some "https://linkedin.com", "LinkedIn", []);
        (Some "https://github.com", "GitHub", []);
        (Some "mailto:contact@example.com", "Email", []) ] /\
    by_tag "button" tree = [].
Proof.
  destruct s as [v sel]; cbn [currentView]; intros ->.
  eexists; split; [vm_compute; reflexivity |].
  repeat split; vm_compute; reflexivity.
Qed.

Lemma home_cards_match_registry_witness :
  currentView (goHome (selectProject "ecommerce" initial)) = "home" /\
  exists tree,
    outcome (Portfolio (goHome (selectProject "ecommerce" initial))) = Ok tree /\
    map (fun c => (card_key c, card_title c, headings "span" c, headings "p" c))
        (cards tree)
    = map (fun kp : string * ProjectRecord =>
             (Some (fst kp), [title (snd kp)], [status (snd kp)], [tagline (snd kp)]))
          projects /\
    handlers tree = map ProjectCard_onClick registry_keys /\
    map (fun a => (attribute "href" a, text_content a, handlers a)) (by_tag "a" tree)
    = [ (Some "https://linkedin.com", "LinkedIn", []);
        (Some "https://github.com", "GitHub", []);
        (Some "mailto:contact@example.com", "Email", []) ] /\
    by_tag "button" tree = [].
Proof.
  split; [reflexivity |].
  apply (home_cards_match_registry (goHome (selectProject "ecommerce" initial)));
    reflexivity.
Defined.
